(** * Impact-factor resolution of [src/app/impact_factors.py]

    A shallow embedding of [get_impact_factor] and
    [estimate_impact_from_name].  Python [str] values are modelled as
    [string]s whose characters are the code points U+0000..U+00FF (one
    [ascii] each); [str.isspace], [str.lower] and the regular-expression
    class [\w] are written out for that range.  Python [float]s are the
    primitive binary64 floats of Rocq, whose [*] is the IEEE product that
    CPython computes.  Python dicts are association lists in insertion
    order. *)

From Stdlib Require Import String Ascii List Bool ZArith Lia.
From Stdlib Require Import Floats.
Import ListNotations.

Open Scope string_scope.
Open Scope nat_scope.
#[local] Set Warnings "-inexact-float".

(** ** Exceptions *)

(** The only exception the resolver could raise on [str] arguments is the
    [ZeroDivisionError] of the ratio [... / shorter] in the partial match. *)
Inductive py_exn := ZeroDivisionError.

Definition result (A : Type) : Type := (py_exn + A)%type.

Definition ret {A} (a : A) : result A := inr a.
Definition raise {A} (e : py_exn) : result A := inl e.
Definition bind {A B} (m : result A) (k : A -> result B) : result B :=
  match m with inl e => inl e | inr a => k a end.

Notation "x <- m ;; k" := (bind m (fun x => k))
  (at level 61, m at next level, right associativity).

(** ** Python [str] operations *)

Definition code (c : ascii) : nat := nat_of_ascii c.

(** [str.isspace] on U+0000..U+00FF. *)
Definition py_isspace (c : ascii) : bool :=
  let n := code c in
  ((9 <=? n) && (n <=? 13)) || ((28 <=? n) && (n <=? 32))
  || (n =? 133) || (n =? 160).

(** [str.lower] on one character of U+0000..U+00FF. *)
Definition lower_char (c : ascii) : ascii :=
  let n := code c in
  if ((65 <=? n) && (n <=? 90)) || ((192 <=? n) && (n <=? 222) && negb (n =? 215))
  then ascii_of_nat (n + 32) else c.

Fixpoint py_lower (s : string) : string :=
  match s with
  | EmptyString => EmptyString
  | String c r => String (lower_char c) (py_lower r)
  end.

(** [\w] of Python's [re] on [str] patterns: [_] and the alphanumeric
    characters ([str.isalnum]) of U+0000..U+00FF. *)
Definition is_word (c : ascii) : bool :=
  let n := code c in
  ((48 <=? n) && (n <=? 57)) || ((65 <=? n) && (n <=? 90)) || (n =? 95)
  || ((97 <=? n) && (n <=? 122))
  || (n =? 170) || (n =? 178) || (n =? 179) || (n =? 181) || (n =? 185)
  || (n =? 186) || ((188 <=? n) && (n <=? 190))
  || ((192 <=? n) && (n <=? 255) && negb (n =? 215) && negb (n =? 247)).

Fixpoint lstrip (s : string) : string :=
  match s with
  | EmptyString => EmptyString
  | String c r => if py_isspace c then lstrip r else s
  end.

Fixpoint rstrip (s : string) : string :=
  match s with
  | EmptyString => EmptyString
  | String c r =>
      match rstrip r with
      | EmptyString => if py_isspace c then EmptyString else String c EmptyString
      | r' => String c r'
      end
  end.

(** [str.strip()] *)
Definition py_strip (s : string) : string := rstrip (lstrip s).

Fixpoint prefixb (p s : string) : bool :=
  match p, s with
  | EmptyString, _ => true
  | String a p', String b s' => Ascii.eqb a b && prefixb p' s'
  | String _ _, EmptyString => false
  end.

(** [needle in hay] *)
Fixpoint py_in (needle hay : string) : bool :=
  prefixb needle hay ||
  match hay with
  | EmptyString => false
  | String _ r => py_in needle r
  end.

(** Non-overlapping left-to-right occurrences of a non-empty [sub]:
    [skip] characters still belong to the last occurrence found. *)
Fixpoint count_from (sub : string) (skip : nat) (s : string) : nat :=
  match s with
  | EmptyString => 0
  | String _ r =>
      match skip with
      | S k => count_from sub k r
      | O => if prefixb sub s then S (count_from sub (String.length sub - 1) r)
             else count_from sub 0 r
      end
  end.

(** [s.count(sub)]; the empty [sub] occurs [len(s) + 1] times. *)
Definition py_count (s sub : string) : nat :=
  match sub with
  | EmptyString => S (String.length s)
  | _ => count_from sub 0 s
  end.

(** ** Python [round(x, 1)] *)

(** Round-half-to-even of the rational [num / den] ([den > 0]). *)
Definition round_half_even (num den : Z) : Z :=
  let q := (num / den)%Z in
  let r := (num mod den)%Z in
  match Z.compare (2 * r) den with
  | Lt => q
  | Gt => q + 1
  | Eq => if Z.even q then q else q + 1
  end%Z.

(** The double nearest to [n / 10]. *)
Definition decimal1 (n : Z) : float :=
  SF2Prim (SFdiv prec emax (binary_normalize prec emax n 0 false)
                            (binary_normalize prec emax 10 0 false)).

(** CPython's [round(x, 1)]: the exact binary value of [x] rounded half
    to even at the first decimal, read back as the nearest double;
    integral, infinite and NaN values are returned unchanged. *)
Definition round1 (x : float) : float :=
  match Prim2SF x with
  | S754_finite s m e =>
      if (0 <=? e)%Z then x
      else
        let n := round_half_even (Zpos m * 10) (2 ^ (- e))%Z in
        let y := decimal1 n in
        if s then (- y)%float else y
  | _ => x
  end.

(** ** Dicts *)

(** [d.get(k)] on a dict with [str] keys, in insertion order. *)
Fixpoint dict_get {V} (k : string) (d : list (string * V)) : option V :=
  match d with
  | [] => None
  | (k', v) :: d' => if String.eqb k k' then Some v else dict_get k d'
  end.

(** ** Static tables *)

(** [JOURNAL_IMPACT_FACTORS["Allergy"]] *)
Definition allergy_table : list (string * float) := [
  ("Allergy", 12.6%float);
  ("Journal of Allergy and Clinical Immunology", 11.4%float);
  ("Clinical Reviews in Allergy & Immunology", 8.4%float);
  ("Journal of Allergy and Clinical Immunology-In Practice", 8.2%float);
  ("Clinical and Experimental Allergy", 6.3%float);
  ("Allergology International", 6.2%float);
  ("Journal of Investigational Allergology and Clinical Immunology", 6.1%float);
  ("Annals of Allergy Asthma & Immunology", 5.8%float);
  ("Current Allergy and Asthma Reports", 5.4%float);
  ("Contact Dermatitis", 4.8%float);
  ("Clinical and Translational Allergy", 4.6%float);
  ("Pediatric Allergy and Immunology", 4.3%float);
  ("Allergy Asthma & Immunology Research", 4.1%float);
  ("World Allergy Organization Journal", 3.9%float);
  ("Journal of Asthma and Allergy", 3.7%float);
  ("Current Opinion in Allergy and Clinical Immunology", 3.0%float);
  ("Immunology and Allergy Clinics of North America", 2.7%float);
  ("Allergy Asthma and Clinical Immunology", 2.6%float);
  ("Allergy and Asthma Proceedings", 2.6%float);
  ("Allergologia et Immunopathologia", 2.5%float);
  ("International Archives of Allergy and Immunology", 2.5%float);
  ("Asian Pacific Journal of Allergy and Immunology", 2.3%float);
  ("Journal of Asthma", 1.7%float);
  ("Allergologie", 1.4%float);
  ("Postepy Dermatologii i Alergologii", 1.4%float);
  ("Iranian Journal of Allergy Asthma and Immunology", 1.2%float);
  ("Pediatric Allergy Immunology and Pulmonology", 1.1%float);
  ("Revue Francaise d'Allergologie", 0.5%float)].

(** [JOURNAL_IMPACT_FACTORS["Ophthalmology"]] *)
Definition ophthalmology_table : list (string * float) := [
  ("Progress in Retinal and Eye Research", 14.7%float);
  ("Ophthalmology", 9.2%float);
  ("JAMA Ophthalmology", 7.9%float);
  ("Ocular Surface", 7.5%float);
  ("Survey of Ophthalmology", 5.9%float);
  ("Annual Review of Vision Science", 5.5%float);
  ("Clinical and Experimental Ophthalmology", 3.8%float);
  ("American Journal of Ophthalmology", 5.6%float);
  ("Contact Lens & Anterior Eye", 3.2%float);
  ("British Journal of Ophthalmology", 4.6%float);
  ("Asia-Pacific Journal of Ophthalmology", 2.8%float);
  ("Canadian Journal of Ophthalmology-Journal Canadien d'Ophtalmologie", 2.5%float);
  ("Acta Ophthalmologica", 3.5%float);
  ("Experimental Eye Research", 3.5%float);
  ("Current Opinion in Ophthalmology", 3.1%float);
  ("Journal of Refractive Surgery", 2.9%float);
  ("Eye", 2.8%float);
  ("Ophthalmic and Physiological Optics", 2.7%float);
  ("Translational Vision Science & Technology", 2.5%float);
  ("Ophthalmology and Therapy", 2.4%float);
  ("Journal of Cataract and Refractive Surgery", 4.1%float);
  ("Documenta Ophthalmologica", 2.0%float);
  ("Ocular Immunology and Inflammation", 2.2%float);
  ("Graefes Archive for Clinical and Experimental Ophthalmology", 3.3%float);
  ("Retina-The Journal of Retinal and Vitreous Diseases", 4.3%float);
  ("Indian Journal of Ophthalmology", 1.8%float);
  ("Ophthalmologica", 2.2%float);
  ("Japanese Journal of Ophthalmology", 1.9%float);
  ("Eye & Contact Lens-Science and Clinical Practice", 2.3%float);
  ("Journal of Vision", 2.1%float);
  ("Ophthalmic Research", 2.0%float);
  ("Journal of Glaucoma", 2.4%float);
  ("Journal of Neuro-Ophthalmology", 2.2%float);
  ("Cornea", 2.6%float);
  ("International Journal of Ophthalmology", 1.6%float);
  ("Journal of Ocular Pharmacology and Therapeutics", 1.9%float);
  ("Seminars in Ophthalmology", 1.5%float);
  ("Journal of Ophthalmology", 1.7%float);
  ("BMC Ophthalmology", 1.8%float);
  ("Ophthalmic Epidemiology", 1.9%float);
  ("Current Eye Research", 2.0%float)].

(** [JOURNAL_IMPACT_FACTORS["Dermatology"]] *)
Definition dermatology_table : list (string * float) := [
  ("Journal of Dermatological Science", 3.8%float);
  ("Dermatologic Therapy", 3.7%float);
  ("Clinical and Experimental Dermatology", 3.7%float);
  ("Experimental Dermatology", 3.5%float);
  ("Acta Dermato-Venereologica", 3.5%float);
  ("Dermatology and Therapy", 3.5%float);
  ("International Journal of Dermatology", 3.5%float);
  ("Burns", 3.2%float);
  ("Indian Journal of Dermatology Venereology & Leprology", 3.2%float);
  ("Journal of Cutaneous Medicine and Surgery", 3.1%float);
  ("Annales de Dermatologie et de Venereologie", 3.1%float);
  ("Dermatology", 3.0%float);
  ("Journal of Dermatology", 2.9%float);
  ("Journal of Dermatological Treatment", 2.9%float);
  ("Skin Pharmacology and Physiology", 2.8%float);
  ("International Journal of Cosmetic Science", 2.7%float);
  ("International Wound Journal", 2.6%float);
  ("Anais Brasileiros de Dermatologia", 2.6%float);
  ("Dermatologic Surgery", 2.5%float);
  ("Dermatology Practical & Conceptual", 2.5%float);
  ("Photodermatology Photoimmunology & Photomedicine", 2.5%float);
  ("Journal of Tissue Viability", 2.4%float);
  ("Journal of Cosmetic Dermatology", 2.3%float);
  ("Clinics in Dermatology", 2.3%float);
  ("Dermatologica Sinica", 2.3%float);
  ("Lasers in Surgery and Medicine", 2.2%float);
  ("Australasian Journal of Dermatology", 2.2%float);
  ("Dermatologica Clinica", 2.2%float);
  ("European Journal of Dermatology", 2.0%float);
  ("Skin Research and Technology", 2.0%float);
  ("Veterinary Dermatology", 1.9%float);
  ("Clinical Cosmetic and Investigational Dermatology", 1.9%float);
  ("Archives of Dermatological Research", 1.8%float);
  ("Advances in Skin & Wound Care", 1.7%float);
  ("Journal of Cutaneous Pathology", 1.6%float);
  ("International Journal of Lower Extremity Wounds", 1.5%float);
  ("Annals of Dermatology", 1.5%float);
  ("Melanoma Research", 1.5%float);
  ("Journal of Wound Care", 1.5%float);
  ("Journal of Burn Care & Research", 1.5%float);
  ("Postepy Dermatologii (Alergologii)", 1.4%float);
  ("Journal of Cosmetic and Laser Therapy", 1.2%float);
  ("Journal of Investigative Dermatology", 8.6%float);
  ("JAMA Dermatology", 9.3%float);
  ("British Journal of Dermatology", 9.0%float)].

Definition JOURNAL_IMPACT_FACTORS : list (string * list (string * float)) := [
  ("Allergy", allergy_table);
  ("Ophthalmology", ophthalmology_table);
  ("Dermatology", dermatology_table)].

Definition HIGH_IMPACT_JOURNALS : list (string * float) := [
  ("Science", 47.7%float);
  ("Nature", 49.9%float);
  ("Cell", 38.6%float);
  ("PNAS", 11.2%float);
  ("PLoS Medicine", 10.5%float);
  ("JAMA Internal Medicine", 18.7%float);
  ("BMJ", 39.9%float);
  ("NEJM", 91.2%float);
  ("Nature Medicine", 53.4%float);
  ("Lancet", 79.3%float)].

(** ** The regular expressions of [GENERIC_PATTERNS] *)

(** The fragment of Python's regular expressions the patterns use. *)
Inductive regex :=
| RLit (s : string)          (* a literal *)
| RWord                      (* \w+ *)
| RSeq (a b : regex)
| RAlt (a b : regex).

Fixpoint drop (n : nat) (s : string) : string :=
  match n, s with
  | S n', String _ r => drop n' r
  | _, _ => s
  end.

(** The rests of [s] after each way [\w+] can consume a prefix. *)
Fixpoint word_rests (s : string) : list string :=
  match s with
  | String c r => if is_word c then r :: word_rests r else []
  | EmptyString => []
  end.

(** All rests of [s] after a match of [r] at its start (the backtracking
    matcher explores exactly these). *)
Fixpoint rx_rests (r : regex) (s : string) : list string :=
  match r with
  | RLit p => if prefixb p s then [drop (String.length p) s] else []
  | RWord => word_rests s
  | RSeq a b => flat_map (rx_rests b) (rx_rests a s)
  | RAlt a b => rx_rests a s ++ rx_rests b s
  end.

Definition newline : string := String (ascii_of_nat 10) EmptyString.

(** [re.search('^(' + r + ')$', s)]: [^] only matches at position 0 and
    [$] at the end or before a final newline. *)
Definition rx_search (r : regex) (s : string) : bool :=
  existsb (fun rest => String.eqb rest "" || String.eqb rest newline)
          (rx_rests r s).

Definition lits (a b : string) : regex := RAlt (RLit a) (RLit b).
Definition word_after (p : string) : regex := RSeq (RLit p) RWord.
Definition word_before (p : string) : regex := RSeq RWord (RLit p).

Definition GENERIC_PATTERNS : list (regex * float) := [
  (lits "new england journal of medicine" "nejm", 91.2%float);
  (lits "lancet" "the lancet", 79.3%float);
  (lits "journal of the american medical association" "jama", 56.3%float);
  (RLit "nature medicine", 53.4%float);
  (lits "bmj" "british medical journal", 39.9%float);
  (word_after "nature reviews ", 30.0%float);
  (word_after "annual review of ", 20.0%float);
  (word_after "cell ", 15.0%float);
  (word_after "advances in ", 10.0%float);
  (RSeq (word_after "journal of ") (word_after " and "), 8.5%float);
  (word_after "international journal of ", 7.0%float);
  (word_after "journal of ", 6.0%float);
  (word_after "european journal of ", 5.5%float);
  (word_after "american journal of ", 5.0%float);
  (word_after "british journal of ", 4.5%float);
  (word_after "current ", 4.0%float);
  (word_before " journal", 3.5%float);
  (word_before " research", 3.0%float);
  (word_before " reviews", 2.5%float);
  (word_before " practice", 2.0%float);
  (word_before " proceedings", 1.5%float);
  (word_before " communications", 1.0%float)].

(** ** [estimate_impact_from_name] *)

Definition prestigious_indicators : list string :=
  ["nature"; "cell"; "lancet"; "jama"; "nejm"; "bmj"; "science";
   "elsevier"; "wiley"; "oxford"; "cambridge"; "american"; "european";
   "international"; "world"; "royal"; "society"].

Definition higher_impact_types : list string :=
  ["review"; "advances"; "trends"; "progress"; "annual"; "current"].

(** [for ind in inds: if ind in name: base *= factor; break] *)
Fixpoint scale_first_hit (inds : list string) (name : string)
    (factor base : float) : float :=
  match inds with
  | [] => base
  | ind :: inds' =>
      if py_in ind name then (base * factor)%float
      else scale_first_hit inds' name factor base
  end.

(** The multiplications of [estimate_impact_from_name], before the cap. *)
Definition base_impact_before_cap (journal_name specialty : string) : float :=
  let base_impact := 1.0%float in
  let base_impact := scale_first_hit prestigious_indicators journal_name 1.5%float base_impact in
  let base_impact := scale_first_hit higher_impact_types journal_name 1.3%float base_impact in
  if py_in specialty journal_name then (base_impact * 1.2)%float else base_impact.

Definition estimate_impact_from_name (journal_name specialty : string) : float :=
  let base_impact := base_impact_before_cap journal_name specialty in
  let base_impact := if (15.0 <? base_impact)%float then 15.0%float else base_impact in
  round1 base_impact.

(** ** The steps of [get_impact_factor] *)

(** High-impact journals: equal to, or a substring of, the lower-cased
    name; the first entry in dict order wins. *)
Fixpoint high_impact_step (hi : list (string * float)) (lower : string) : option float :=
  match hi with
  | [] => None
  | (known, impact) :: hi' =>
      if String.eqb (py_lower known) lower || py_in (py_lower known) lower
      then Some impact else high_impact_step hi' lower
  end.

(** [JOURNAL_IMPACT_FACTORS.get(specialty, {})] *)
Definition specialty_dict (specialty : string) : list (string * float) :=
  match dict_get specialty JOURNAL_IMPACT_FACTORS with
  | Some d => d
  | None => []
  end.

(** Case-insensitive match. *)
Fixpoint case_insensitive_step (d : list (string * float)) (lower : string) : option float :=
  match d with
  | [] => None
  | (key, value) :: d' =>
      if String.eqb (py_lower key) lower then Some value
      else case_insensitive_step d' lower
  end.

(** [max(...) / shorter > 0.7] once [shorter > 5] has been checked.  The
    operands are string lengths and occurrence counts, so the quotient
    of doubles compared with the double [0.7] is the exact comparison
    [count / shorter > 7 / 10]; a zero [shorter] raises. *)
Definition ratio_gt_07 (cnt shorter : nat) : result bool :=
  match shorter with
  | O => raise ZeroDivisionError
  | _ => ret (7 * shorter <? 10 * cnt)
  end.

(** The acceptance test of one key in the partial match. *)
Definition fuzzy_accept (lower key_lower : string) : result bool :=
  if py_in lower key_lower || py_in key_lower lower then
    let shorter := Nat.min (String.length lower) (String.length key_lower) in
    if 5 <? shorter then
      ratio_gt_07 (Nat.max (py_count lower key_lower) (py_count key_lower lower)) shorter
    else ret false
  else ret false.

(** Partial match. *)
Fixpoint fuzzy_step (d : list (string * float)) (lower : string) : result (option float) :=
  match d with
  | [] => ret None
  | (key, value) :: d' =>
      ok <- fuzzy_accept lower (py_lower key) ;;
      if ok then ret (Some value) else fuzzy_step d' lower
  end.

(** The first generic pattern that matches, with its factor. *)
Fixpoint pattern_step (pats : list (regex * float)) (lower : string) : option float :=
  match pats with
  | [] => None
  | (pattern, impact) :: pats' =>
      if rx_search pattern lower then Some impact else pattern_step pats' lower
  end.

(** ** [get_impact_factor] *)

Definition get_impact_factor (specialty journal_name : string) (default : float)
    : result float :=
  match journal_name with
  | EmptyString => ret default
  | _ =>
    let journal_name_cleaned := py_strip journal_name in
    let journal_name_lower := py_lower journal_name_cleaned in
    match high_impact_step HIGH_IMPACT_JOURNALS journal_name_lower with
    | Some impact => ret impact
    | None =>
      let d := specialty_dict specialty in
      match dict_get journal_name_cleaned d with
      | Some v => ret v
      | None =>
        match case_insensitive_step d journal_name_lower with
        | Some v => ret v
        | None =>
          fz <- fuzzy_step d journal_name_lower ;;
          match fz with
          | Some v => ret v
          | None =>
            match pattern_step GENERIC_PATTERNS journal_name_lower with
            | Some impact =>
                if py_in (py_lower specialty) journal_name_lower
                then ret (impact * 1.2)%float
                else ret impact
            | None =>
                let estimated_impact :=
                  estimate_impact_from_name journal_name_lower (py_lower specialty) in
                if (0 <? estimated_impact)%float then ret estimated_impact
                else ret default
            end
          end
        end
      end
    end
  end.

(** ** [get_all_specialties] *)

Definition get_all_specialties : list string :=
  ["Allergy";
   "Andrology";
   "Anesthesiology";
   "Audiology & Speech-Language Pathology";
   "Behavioral Sciences";
   "Cardiac & Cardiovascular Systems";
   "Clinical Neurology";
   "Critical Care Medicine";
   "Dentistry, Oral Surgery & Medicine";
   "Dermatology";
   "Emergency Medicine";
   "Endocrinology & Metabolism";
   "Engineering, Biomedical";
   "Gastroenterology & Hepatology";
   "Genetics & Heredity";
   "Geriatrics & Gerontology";
   "Health Care Sciences & Services";
   "Health Policy & Services";
   "Hematology";
   "Immunology";
   "Infectious Diseases";
   "Integrative & Complementary Medicine";
   "Materials Science, Biomaterials";
   "Medical Ethics";
   "Medical Informatics";
   "Medical Laboratory Technology";
   "Medicine, General & Internal";
   "Medicine, Legal";
   "Medicine, Research & Experimental";
   "Neuroimaging";
   "Neurosciences";
   "Nursing";
   "Nutrition & Dietetics";
   "Obstetrics & Gynecology";
   "Oncology";
   "Ophthalmology";
   "Orthopedics";
   "Otorhinolaryngology";
   "Pathology";
   "Pediatrics";
   "Peripheral Vascular Disease";
   "Pharmacology & Pharmacy";
   "Primary Health Care";
   "Psychiatry";
   "Psychology, Clinical";
   "Public, Environmental & Occupational Health";
   "Radiology, Nuclear Medicine & Medical Imaging";
   "Rehabilitation";
   "Reproductive Biology";
   "Respiratory System";
   "Rheumatology";
   "Sport Sciences";
   "Substance Abuse";
   "Surgery";
   "Toxicology";
   "Transplantation";
   "Tropical Medicine";
   "Urology & Nephrology";
   "Virology"].

(** ** Auxiliary predicates used in statements *)

(** Every character of [s] satisfies [str.isspace]. *)
Fixpoint all_space (s : string) : bool :=
  match s with
  | EmptyString => true
  | String c r => py_isspace c && all_space r
  end.

(** The first [n] characters of [s]. *)
Fixpoint take (n : nat) (s : string) : string :=
  match n, s with
  | S n', String c r => String c (take n' r)
  | _, _ => EmptyString
  end.

(** No string occurs twice. *)
Fixpoint nodupb (l : list string) : bool :=
  match l with
  | [] => true
  | x :: r => negb (existsb (String.eqb x) r) && nodupb r
  end.

(** Strictly increasing in code-point order. *)
Fixpoint increasingb (l : list string) : bool :=
  match l with
  | x :: ((y :: _) as r) =>
      match String.compare x y with Lt => increasingb r | _ => false end
  | _ => true
  end.

(** The eight values the multiplications can produce. *)
Definition base_candidates : list float :=
  [1.0; 1.0 * 1.2; 1.0 * 1.3; 1.0 * 1.3 * 1.2;
   1.0 * 1.5; 1.0 * 1.5 * 1.2; 1.0 * 1.5 * 1.3; 1.0 * 1.5 * 1.3 * 1.2]%float.

(** Compares a result with a float, to tell concrete results apart. *)
Definition ret_eqb (y : float) (r : result float) : bool :=
  match r with inr x => (x =? y)%float | inl _ => false end.

(** Splits an equation between pairs and substitutes both components. *)
Ltac split_pair E :=
  let H1 := fresh "H" in let H2 := fresh "H" in
  pose proof (f_equal fst E) as H1; pose proof (f_equal snd E) as H2;
  simpl in H1, H2; subst.

(** ** Facts about the embedding *)

Example ex_exact_hit : get_impact_factor "Ophthalmology" "Ophthalmology" 1.0%float = ret 9.2%float.
Proof. vm_compute. reflexivity. Qed.
Example ex_science : get_impact_factor "Ophthalmology" "Science" 1.0%float = ret 47.7%float.
Proof. vm_compute. reflexivity. Qed.
Example ex_nature_medicine : get_impact_factor "Ophthalmology" "Nature Medicine" 1.0%float = ret 49.9%float.
Proof. vm_compute. reflexivity. Qed.
Example ex_cornea : get_impact_factor "Ophthalmology" "corneacorneacorneacorneacornea" 1.0%float = ret 2.6%float.
Proof. vm_compute. reflexivity. Qed.
Example ex_blank : get_impact_factor "Allergy" " " 5.0%float = ret 1.0%float.
Proof. vm_compute. reflexivity. Qed.
Example ex_estimate : estimate_impact_from_name "nature reviews allergy" "allergy" = 2.3%float.
Proof. vm_compute. reflexivity. Qed.
Example ex_pattern : get_impact_factor "Allergy" "Journal of Allergy" 1.0%float = ret (6.0 * 1.2)%float.
Proof. vm_compute. reflexivity. Qed.
Example ex_science_substring : get_impact_factor "Ophthalmology" "Translational Vision Science & Technology" 1.0%float = ret 47.7%float.
Proof. vm_compute. reflexivity. Qed.
Example ex_round1 : round1 1.95%float = 1.9%float /\ round1 (1.5 * 1.3)%float = 2.0%float /\ round1 0.25%float = 0.2%float /\ round1 0.35%float = 0.3%float.
Proof. vm_compute. repeat split; reflexivity. Qed.


Lemma dict_get_in {V} (k : string) (d : list (string * V)) (v : V) :
  dict_get k d = Some v -> In k (map fst d) /\ In v (map snd d).
Proof.
  induction d as [|[k' v'] d IH]; simpl; [discriminate|].
  destruct (String.eqb_spec k k') as [->|_].
  - intros [= ->]. auto.
  - intros H. destruct (IH H). auto.
Qed.

Lemma high_impact_step_in hi l v :
  high_impact_step hi l = Some v -> In v (map snd hi).
Proof.
  induction hi as [|[k v'] hi IH]; simpl; [discriminate|].
  destruct (_ || _); [intros [= ->]; auto | auto].
Qed.

Lemma case_insensitive_step_in d l v :
  case_insensitive_step d l = Some v -> In v (map snd d).
Proof.
  induction d as [|[k v'] d IH]; simpl; [discriminate|].
  destruct (String.eqb _ _); [intros [= ->]; auto | auto].
Qed.

Lemma pattern_step_in pats l f :
  pattern_step pats l = Some f -> In f (map snd pats).
Proof.
  induction pats as [|[r f'] pats IH]; simpl; [discriminate|].
  destruct (rx_search r l); [intros [= ->]; auto | auto].
Qed.

(** [pattern_step] returns the factor of the first pattern that matches. *)
Lemma pattern_step_first pats l f :
  pattern_step pats l = Some f ->
  exists pre r post, pats = (pre ++ (r, f) :: post)%list /\ rx_search r l = true /\
    forall r' f', In (r', f') pre -> rx_search r' l = false.
Proof.
  induction pats as [|[r f'] pats IH]; simpl; [discriminate|].
  case_eq (rx_search r l); intros Hr.
  - intros [= ->]. exists [], r, pats. simpl. intuition.
  - intros H. destruct (IH H) as (pre & r0 & post & -> & Hm & Hpre).
    exists ((r, f') :: pre), r0, post. simpl. split; [reflexivity|]. split; [exact Hm|].
    intros r' f'' [[= -> ->]|Hin]; eauto.
Qed.

(** The ratio test is only reached with [shorter > 5]: it never raises. *)
Lemma fuzzy_accept_ok l k : exists b, fuzzy_accept l k = ret b.
Proof.
  unfold fuzzy_accept.
  destruct (_ || _); [|eauto].
  destruct (5 <? _) eqn:H; [|eauto].
  apply Nat.ltb_lt in H.
  destruct (Nat.min _ _) as [|s]; [lia|]. simpl. eauto.
Qed.

Lemma fuzzy_step_ok d l : exists o, fuzzy_step d l = ret o.
Proof.
  induction d as [|[k v] d IH]; simpl; [eauto|].
  destruct (fuzzy_accept_ok l (py_lower k)) as [b ->]. simpl.
  destruct b; eauto.
Qed.

(** An accepted key needs at least five non-overlapping occurrences. *)
Lemma fuzzy_accept_count l k :
  fuzzy_accept l k = ret true ->
  5 <= Nat.max (py_count l k) (py_count k l).
Proof.
  unfold fuzzy_accept.
  destruct (_ || _); [|discriminate].
  destruct (5 <? _) eqn:H; [|discriminate].
  apply Nat.ltb_lt in H.
  destruct (Nat.min _ _) as [|s] eqn:Hs; [lia|].
  simpl. intros [= Hlt]. apply Nat.ltb_lt in Hlt. lia.
Qed.

Lemma fuzzy_step_in d l v :
  fuzzy_step d l = ret (Some v) ->
  exists key, In (key, v) d /\
    5 <= Nat.max (py_count l (py_lower key)) (py_count (py_lower key) l).
Proof.
  induction d as [|[k v'] d IH]; simpl; [discriminate|].
  destruct (fuzzy_accept_ok l (py_lower k)) as [b Hb]. rewrite Hb. simpl.
  destruct b.
  - intros [= ->]. exists k. split; [left; reflexivity|].
    apply fuzzy_accept_count. exact Hb.
  - intros H. destruct (IH H) as (key & Hin & Hc). eauto.
Qed.

Lemma scale_first_hit_spec inds name factor base :
  scale_first_hit inds name factor base =
  if existsb (fun ind => py_in ind name) inds then (base * factor)%float else base.
Proof.
  induction inds as [|i inds IH]; simpl; [reflexivity|].
  destruct (py_in i name); simpl; [reflexivity|exact IH].
Qed.

Lemma base_impact_before_cap_cases j s :
  In (base_impact_before_cap j s) base_candidates.
Proof.
  unfold base_impact_before_cap. rewrite !scale_first_hit_spec.
  destruct (existsb _ prestigious_indicators), (existsb _ higher_impact_types),
    (py_in s j); cbn -[PrimFloat.mul]; tauto.
Qed.

Lemma estimate_cases j s :
  In (estimate_impact_from_name j s) [1.0; 1.2; 1.3; 1.6; 1.5; 1.8; 2.0; 2.3]%float.
Proof.
  unfold estimate_impact_from_name.
  destruct (base_impact_before_cap_cases j s) as [H|[H|[H|[H|[H|[H|[H|[H|[]]]]]]]]];
    rewrite <- H; vm_compute; tauto.
Qed.

Lemma specialty_dict_cases sp :
  specialty_dict sp = [] \/ In (specialty_dict sp) (map snd JOURNAL_IMPACT_FACTORS).
Proof.
  unfold specialty_dict.
  destruct (dict_get sp JOURNAL_IMPACT_FACTORS) as [d|] eqn:H; [|auto].
  right. exact (proj2 (dict_get_in _ _ _ H)).
Qed.

(** Every key of the specialty tables is non-empty and already stripped. *)
Lemma table_keys_clean tbl k :
  In tbl (map snd JOURNAL_IMPACT_FACTORS) -> In k (map fst tbl) ->
  k <> "" /\ py_strip k = k.
Proof.
  assert (Hb : forallb (fun tbl => forallb (fun k =>
            negb (String.eqb k "") && String.eqb (py_strip k) k) (map fst tbl))
            (map snd JOURNAL_IMPACT_FACTORS) = true) by (vm_compute; reflexivity).
  rewrite forallb_forall in Hb. intros Ht Hk.
  specialize (Hb _ Ht). rewrite forallb_forall in Hb. specialize (Hb _ Hk).
  apply andb_true_iff in Hb as [H1 H2].
  apply negb_true_iff, String.eqb_neq in H1. apply String.eqb_eq in H2. auto.
Qed.

Lemma py_lower_empty sp : py_lower sp = "" -> sp = "".
Proof. destruct sp; simpl; congruence. Qed.

Lemma py_in_empty s : py_in s "" = String.eqb s "".
Proof. destruct s; reflexivity. Qed.

(** ** Claims *)

(** C1 (as stated): every journal name present verbatim as a key of a
    specialty's table resolves, under that specialty, to its table value.
    False: "Translational Vision Science & Technology" is listed under
    Ophthalmology with 2.5, but the high-impact entry "Science" is a
    substring of its lower-cased name and is checked first: 47.7. *)
Lemma C1_counterexample :
  ~ (forall sp tbl k v d,
       dict_get sp JOURNAL_IMPACT_FACTORS = Some tbl ->
       dict_get k tbl = Some v ->
       get_impact_factor sp k d = ret v).
Proof.
  intros H.
  specialize (H "Ophthalmology" ophthalmology_table
                "Translational Vision Science & Technology" 2.5%float 1.0%float
                eq_refl eq_refl).
  apply (f_equal (ret_eqb 2.5%float)) in H.
  vm_compute in H. discriminate.
Qed.

(** C1 (amended): a key [k] of the table of specialty [sp] resolves to its
    table value [v], for any default, as long as no high-impact journal
    name is (a substring of) the lower-cased key, since those are checked
    before the specialty table. *)
Theorem exact_key_resolves sp tbl k v d
  (Hsp : dict_get sp JOURNAL_IMPACT_FACTORS = Some tbl)
  (Hk : dict_get k tbl = Some v)
  (Hhi : high_impact_step HIGH_IMPACT_JOURNALS (py_lower k) = None) :
  get_impact_factor sp k d = ret v.
Proof.
  destruct (table_keys_clean tbl k (proj2 (dict_get_in _ _ _ Hsp))
              (proj1 (dict_get_in _ _ _ Hk))) as [Hne Hstrip].
  destruct k as [|c r]; [congruence|].
  unfold get_impact_factor. cbv beta iota zeta.
  rewrite Hstrip, Hhi. unfold specialty_dict. rewrite Hsp, Hk. reflexivity.
Qed.

Lemma exact_key_resolves_witness :
  dict_get "Ophthalmology" JOURNAL_IMPACT_FACTORS = Some ophthalmology_table /\
  dict_get "Ophthalmology" ophthalmology_table = Some 9.2%float /\
  high_impact_step HIGH_IMPACT_JOURNALS (py_lower "Ophthalmology") = None /\
  get_impact_factor "Ophthalmology" "Ophthalmology" 3.0%float = ret 9.2%float.
Proof.
  split; [reflexivity|]. split; [reflexivity|]. split; [vm_compute; reflexivity|].
  apply (exact_key_resolves "Ophthalmology" ophthalmology_table); vm_compute; reflexivity.
Defined.

(** C2 (as stated): an empty or whitespace-only journal name resolves to
    the default.  False: the guard [if not journal_name] only catches the
    empty string; " " with default 5.0 is stripped to "" and reaches the
    name heuristic, which returns 1.0. *)
Lemma C2_counterexample :
  ~ (forall sp j d, py_strip j = "" -> get_impact_factor sp j d = ret d).
Proof.
  intros H. specialize (H "Allergy" " " 5.0%float eq_refl).
  apply (f_equal (ret_eqb 5.0%float)) in H.
  vm_compute in H. discriminate.
Qed.

(** C2 (amended): the empty journal name resolves to the default for any
    specialty and default; a non-empty name that strips to "" falls
    through every lookup to the name heuristic and resolves to 1.0, or to
    1.2 when the specialty is the empty string. *)
Theorem blank_name_resolution sp j d (Hblank : py_strip j = "") :
  get_impact_factor sp j d =
  ret (match j with
       | EmptyString => d
       | _ => if String.eqb sp "" then 1.2%float else 1.0%float
       end).
Proof.
  destruct j as [|c r]; [reflexivity|].
  unfold get_impact_factor. cbv beta iota zeta.
  rewrite Hblank. change (py_lower "") with "".
  replace (high_impact_step HIGH_IMPACT_JOURNALS "") with (@None float)
    by (vm_compute; reflexivity).
  replace (pattern_step GENERIC_PATTERNS "") with (@None float)
    by (vm_compute; reflexivity).
  assert (Hd : dict_get "" (specialty_dict sp) = None /\
               case_insensitive_step (specialty_dict sp) "" = None /\
               fuzzy_step (specialty_dict sp) "" = ret None).
  { destruct (specialty_dict_cases sp) as [->|[<-|[<-|[<-|[]]]]];
      vm_compute; repeat split. }
  destruct Hd as (-> & -> & ->). simpl.
  unfold estimate_impact_from_name, base_impact_before_cap.
  rewrite py_in_empty.
  destruct sp as [|a s]; vm_compute; reflexivity.
Qed.

Lemma blank_name_resolution_witness :
  py_strip " " = "" /\
  get_impact_factor "Allergy" " " 5.0%float = ret 1.0%float.
Proof.
  split; [reflexivity|].
  apply (blank_name_resolution "Allergy" " " 5.0%float). reflexivity.
Defined.

(** C3 (code_bug): a name equal (up to case) to a high-impact entry
    resolves to that entry's factor.  "Nature Medicine" is listed with
    53.4, but the earlier entry "Nature" is a substring of it and wins:
    the name resolves to 49.9 under any specialty. *)
Theorem nature_medicine_shadowed sp d :
  dict_get "Nature Medicine" HIGH_IMPACT_JOURNALS = Some 53.4%float /\
  get_impact_factor sp "Nature Medicine" d = ret 49.9%float.
Proof.
  split; [reflexivity|].
  unfold get_impact_factor. cbv beta iota zeta.
  replace (high_impact_step HIGH_IMPACT_JOURNALS
             (py_lower (py_strip "Nature Medicine"))) with (Some 49.9%float)
    by (vm_compute; reflexivity).
  reflexivity.
Qed.

Lemma science_overrides_ophthalmology :
  get_impact_factor "Ophthalmology" "Science" 1.0%float = ret 47.7%float.
Proof. vm_compute. reflexivity. Qed.

Lemma py_isspace_lower_char c : py_isspace (lower_char c) = py_isspace c.
Proof. destruct c as [[] [] [] [] [] [] [] []]; reflexivity. Qed.

Lemma lstrip_lower s : lstrip (py_lower s) = py_lower (lstrip s).
Proof.
  induction s as [|c r IH]; simpl; [reflexivity|].
  rewrite py_isspace_lower_char. destruct (py_isspace c); [exact IH|reflexivity].
Qed.

Lemma rstrip_lower s : rstrip (py_lower s) = py_lower (rstrip s).
Proof.
  induction s as [|c r IH]; simpl; [reflexivity|].
  rewrite IH, py_isspace_lower_char.
  destruct (rstrip r); simpl; [destruct (py_isspace c)|]; reflexivity.
Qed.

Lemma strip_lower s : py_strip (py_lower s) = py_lower (py_strip s).
Proof. unfold py_strip. rewrite lstrip_lower. apply rstrip_lower. Qed.

(** Every high-impact entry other than "Nature Medicine" is returned for
    any name equal to it up to case, under any specialty. *)
Lemma high_impact_entry_resolves sp j d k v :
  In (k, v) HIGH_IMPACT_JOURNALS -> k <> "Nature Medicine" ->
  py_lower j = py_lower k ->
  get_impact_factor sp j d = ret v.
Proof.
  intros Hin Hnm Hj.
  assert (Hl : py_lower (py_strip j) = py_lower k /\
               high_impact_step HIGH_IMPACT_JOURNALS (py_lower k) = Some v).
  { rewrite <- strip_lower, Hj.
    simpl in Hin.
    repeat (destruct Hin as [E|Hin];
            [split_pair E; first [congruence | split; vm_compute; reflexivity]|]).
    destruct Hin. }
  destruct Hl as [Hl Hhi].
  destruct j as [|c r].
  - simpl in Hj. symmetry in Hj. apply py_lower_empty in Hj. subst k.
    simpl in Hin. intuition discriminate.
  - unfold get_impact_factor. cbv beta iota zeta. rewrite Hl, Hhi. reflexivity.
Qed.

(** C4 (as stated): the partial-match step never returns a value.
    False: under Ophthalmology the name "corneacorneacorneacorneacornea"
    contains the key "Cornea" (6 characters) five times, 5 / 6 > 0.7, and
    the step returns Cornea's 2.6, which [get_impact_factor] returns. *)
Lemma C4_counterexample :
  ~ (forall sp j, fuzzy_step (specialty_dict sp) (py_lower (py_strip j)) = ret None).
Proof.
  intros H. specialize (H "Ophthalmology" "corneacorneacorneacorneacornea").
  vm_compute in H. discriminate.
Qed.

Lemma cornea_fuzzy_hit :
  get_impact_factor "Ophthalmology" "corneacorneacorneacorneacornea" 1.0%float
  = ret 2.6%float.
Proof. vm_compute. reflexivity. Qed.

(** C4 (amended): the partial-match step returns the factor of a key only
    when one of the two lower-cased strings contains at least five
    non-overlapping copies of the other: with [shorter > 5] a count of at
    most four gives a ratio below 0.7, so a single occurrence never
    suffices.  It never raises. *)
Theorem fuzzy_step_needs_five_copies d l v
  (Hhit : fuzzy_step d l = ret (Some v)) :
  exists key, In (key, v) d /\
    5 <= Nat.max (py_count l (py_lower key)) (py_count (py_lower key) l).
Proof. exact (fuzzy_step_in d l v Hhit). Qed.

Lemma fuzzy_step_needs_five_copies_witness :
  exists key, In (key, 2.6%float) ophthalmology_table /\
    5 <= Nat.max (py_count "corneacorneacorneacorneacornea" (py_lower key))
                 (py_count (py_lower key) "corneacorneacorneacorneacornea").
Proof.
  apply (fuzzy_step_needs_five_copies ophthalmology_table
           "corneacorneacorneacorneacornea" 2.6%float).
  vm_compute. reflexivity.
Defined.

(** C5: when the high-impact, exact, case-insensitive and partial steps
    all fail on a non-empty name, and some generic pattern matches the
    lower-cased stripped name, the result is the factor of the first
    matching pattern in table order, times 1.2 exactly when the
    lower-cased specialty is a substring of the lower-cased name. *)
Theorem generic_pattern_fallback sp j d f
  (Hne : j <> "")
  (Hhi : high_impact_step HIGH_IMPACT_JOURNALS (py_lower (py_strip j)) = None)
  (Hex : dict_get (py_strip j) (specialty_dict sp) = None)
  (Hci : case_insensitive_step (specialty_dict sp) (py_lower (py_strip j)) = None)
  (Hfz : fuzzy_step (specialty_dict sp) (py_lower (py_strip j)) = ret None)
  (Hpat : pattern_step GENERIC_PATTERNS (py_lower (py_strip j)) = Some f) :
  (exists pre r post, GENERIC_PATTERNS = (pre ++ (r, f) :: post)%list /\
     rx_search r (py_lower (py_strip j)) = true /\
     forall r' f', In (r', f') pre -> rx_search r' (py_lower (py_strip j)) = false) /\
  get_impact_factor sp j d =
  ret (if py_in (py_lower sp) (py_lower (py_strip j)) then (f * 1.2)%float else f).
Proof.
  split; [exact (pattern_step_first _ _ _ Hpat)|].
  destruct j as [|c r]; [congruence|].
  unfold get_impact_factor. cbv beta iota zeta.
  rewrite Hhi, Hex, Hci, Hfz. cbv beta iota delta [bind ret]. rewrite Hpat.
  destruct (py_in _ _); reflexivity.
Qed.

Lemma generic_pattern_fallback_witness :
  get_impact_factor "Allergy" "Journal of Allergy" 1.0%float = ret (6.0 * 1.2)%float.
Proof.
  rewrite (proj2 (generic_pattern_fallback "Allergy" "Journal of Allergy" 1.0%float 6.0%float
             ltac:(discriminate) ltac:(vm_compute; reflexivity) ltac:(vm_compute; reflexivity)
             ltac:(vm_compute; reflexivity) ltac:(vm_compute; reflexivity)
             ltac:(vm_compute; reflexivity))).
  vm_compute. reflexivity.
Defined.

(** C6: the name heuristic is at most 15.0 and is a value rounded to one
    decimal (the double nearest to [n / 10] for an integer [n]); a name
    with a prestige indicator, a higher-impact type and the specialty
    yields round(1.0 * 1.5 * 1.3 * 1.2, 1) = 2.3. *)
Theorem estimate_bounded_and_rounded j s :
  (estimate_impact_from_name j s <=? 15.0)%float = true /\
  (exists n : Z, estimate_impact_from_name j s = decimal1 n) /\
  (existsb (fun i => py_in i j) prestigious_indicators = true ->
   existsb (fun t => py_in t j) higher_impact_types = true ->
   py_in s j = true ->
   estimate_impact_from_name j s = round1 (1.0 * 1.5 * 1.3 * 1.2)%float /\
   estimate_impact_from_name j s = 2.3%float).
Proof.
  split; [|split].
  - destruct (estimate_cases j s) as [H|[H|[H|[H|[H|[H|[H|[H|[]]]]]]]]];
      rewrite <- H; vm_compute; reflexivity.
  - destruct (estimate_cases j s) as [H|[H|[H|[H|[H|[H|[H|[H|[]]]]]]]]];
      rewrite <- H;
      [exists 10%Z|exists 12%Z|exists 13%Z|exists 16%Z|exists 15%Z|exists 18%Z
      |exists 20%Z|exists 23%Z]; vm_compute; reflexivity.
  - intros H1 H2 H3.
    unfold estimate_impact_from_name, base_impact_before_cap.
    rewrite !scale_first_hit_spec, H1, H2, H3.
    split; vm_compute; reflexivity.
Qed.

Lemma estimate_bounded_and_rounded_witness :
  estimate_impact_from_name "nature reviews allergy" "allergy" = 2.3%float.
Proof.
  apply (estimate_bounded_and_rounded "nature reviews allergy" "allergy");
    vm_compute; reflexivity.
Defined.

(** Every value [get_impact_factor] can return. *)
Lemma get_impact_factor_cases sp j d :
  exists r, get_impact_factor sp j d = ret r /\
    (r = d \/ In r (map snd HIGH_IMPACT_JOURNALS) \/
     In r (map snd (specialty_dict sp)) \/
     In r (map snd GENERIC_PATTERNS) \/
     (exists f, In f (map snd GENERIC_PATTERNS) /\ r = (f * 1.2)%float) \/
     In r [1.0; 1.2; 1.3; 1.6; 1.5; 1.8; 2.0; 2.3]%float).
Proof.
  destruct j as [|c r]; [exists d; auto|].
  unfold get_impact_factor. cbv beta iota zeta.
  destruct (high_impact_step _ _) as [v|] eqn:Hhi.
  { exists v. split; [reflexivity|]. apply high_impact_step_in in Hhi. auto. }
  destruct (dict_get _ (specialty_dict sp)) as [v|] eqn:Hex.
  { exists v. split; [reflexivity|]. apply dict_get_in in Hex. tauto. }
  destruct (case_insensitive_step _ _) as [v|] eqn:Hci.
  { exists v. split; [reflexivity|]. apply case_insensitive_step_in in Hci. tauto. }
  destruct (fuzzy_step_ok (specialty_dict sp) (py_lower (py_strip (String c r))))
    as [[v|] Hfz]; rewrite Hfz; cbv beta iota delta [bind ret].
  { exists v. split; [reflexivity|].
    destruct (fuzzy_step_in _ _ _ Hfz) as (key & Hin & _).
    right; right; left. change v with (snd (key, v)). apply in_map, Hin. }
  destruct (pattern_step _ _) as [f|] eqn:Hpat.
  { apply pattern_step_in in Hpat.
    destruct (py_in _ _); eexists; split; [reflexivity| |reflexivity|]; eauto 10. }
  destruct (estimate_cases (py_lower (py_strip (String c r))) (py_lower sp))
    as [H|[H|[H|[H|[H|[H|[H|[H|[]]]]]]]]];
    rewrite <- H; vm_compute; eexists; split; try reflexivity; simpl; tauto.
Qed.

(** C7: [get_impact_factor] never raises: for any two strings and any
    default it returns a float.  For a specialty without a table and a
    non-empty name, the result is the high-impact value, else the
    (possibly raised) first generic pattern factor, else the name
    heuristic. *)
Theorem get_impact_factor_total sp j d :
  (exists r, get_impact_factor sp j d = ret r) /\
  (dict_get sp JOURNAL_IMPACT_FACTORS = None -> j <> "" ->
   let l := py_lower (py_strip j) in
   get_impact_factor sp j d =
   ret (match high_impact_step HIGH_IMPACT_JOURNALS l with
        | Some v => v
        | None =>
            match pattern_step GENERIC_PATTERNS l with
            | Some f => if py_in (py_lower sp) l then (f * 1.2)%float else f
            | None => estimate_impact_from_name l (py_lower sp)
            end
        end)).
Proof.
  split.
  - destruct (get_impact_factor_cases sp j d) as (r & Hr & _). eauto.
  - intros Hsp Hne l. destruct j as [|c r]; [congruence|].
    unfold get_impact_factor, specialty_dict. rewrite Hsp.
    cbv beta iota zeta. fold l.
    destruct (high_impact_step _ l); [reflexivity|].
    cbv beta iota delta [bind ret dict_get case_insensitive_step fuzzy_step].
    destruct (pattern_step _ l); [destruct (py_in _ _); reflexivity|].
    destruct (estimate_cases l (py_lower sp)) as [H|[H|[H|[H|[H|[H|[H|[H|[]]]]]]]]];
      rewrite <- H; vm_compute; reflexivity.
Qed.

Lemma get_impact_factor_total_witness :
  get_impact_factor "UnknownSpecialty" "Some Journal Name" 1.0%float
  = ret (estimate_impact_from_name "some journal name" "unknownspecialty").
Proof.
  rewrite (proj2 (get_impact_factor_total "UnknownSpecialty" "Some Journal Name" 1.0%float)
             eq_refl ltac:(discriminate)).
  vm_compute. reflexivity.
Defined.

(** C8: "Ophthalmology" under Ophthalmology is an exact table hit, and
    "ophthalmology" a case-insensitive hit; both resolve to 9.2. *)
Theorem ophthalmology_scenarios d :
  high_impact_step HIGH_IMPACT_JOURNALS (py_lower (py_strip "Ophthalmology")) = None /\
  dict_get "Ophthalmology" (specialty_dict "Ophthalmology") = Some 9.2%float /\
  get_impact_factor "Ophthalmology" "Ophthalmology" d = ret 9.2%float /\
  high_impact_step HIGH_IMPACT_JOURNALS (py_lower (py_strip "ophthalmology")) = None /\
  dict_get "ophthalmology" (specialty_dict "Ophthalmology") = None /\
  case_insensitive_step (specialty_dict "Ophthalmology") "ophthalmology" = Some 9.2%float /\
  get_impact_factor "Ophthalmology" "ophthalmology" d = ret 9.2%float.
Proof. repeat split; vm_compute; reflexivity. Qed.

(** Every static factor, every raised pattern factor and every heuristic
    value is positive. *)
Lemma static_values_positive :
  forallb (fun x => 0 <? x)%float
    (map snd HIGH_IMPACT_JOURNALS ++ map snd allergy_table ++
     map snd ophthalmology_table ++ map snd dermatology_table ++
     map snd GENERIC_PATTERNS ++ map (fun f => f * 1.2)%float (map snd GENERIC_PATTERNS) ++
     [1.0; 1.2; 1.3; 1.6; 1.5; 1.8; 2.0; 2.3]%float)%list = true.
Proof. vm_compute. reflexivity. Qed.

(** C9: with a positive default, the result is always positive. *)
Theorem get_impact_factor_positive sp j d (Hd : (0 <? d)%float = true) :
  exists r, get_impact_factor sp j d = ret r /\ (0 <? r)%float = true.
Proof.
  destruct (get_impact_factor_cases sp j d) as (r & Hr & Hc).
  exists r. split; [exact Hr|].
  pose proof static_values_positive as P. rewrite forallb_forall in P.
  destruct Hc as [->|[H|[H|[H|[(f & Hf & ->)|H]]]]].
  - exact Hd.
  - apply P. rewrite !in_app_iff. tauto.
  - destruct (specialty_dict_cases sp) as [E|E]; [rewrite E in H; destruct H|].
    destruct E as [E|[E|[E|[]]]]; simpl in E; rewrite <- E in H;
      apply P; rewrite !in_app_iff; tauto.
  - apply P. rewrite !in_app_iff. tauto.
  - apply P. rewrite !in_app_iff. do 5 right. left.
    apply (in_map (fun f => f * 1.2)%float). exact Hf.
  - apply P. rewrite !in_app_iff. tauto.
Qed.

Lemma get_impact_factor_positive_witness :
  exists r, get_impact_factor "Allergy" "Some Totally Unknown Gazette" 1.0%float = ret r
            /\ (0 <? r)%float = true.
Proof. apply get_impact_factor_positive. vm_compute. reflexivity. Defined.

(** C10: the cap at 15.0 never applies: before it the value is at most
    the product 1.5 * 1.3 * 1.2 (computed in doubles) and below 15.0, so
    the heuristic is that value rounded, and at most 2.4. *)
Theorem estimate_cap_unreachable j s :
  (base_impact_before_cap j s <=? 1.5 * 1.3 * 1.2)%float = true /\
  (base_impact_before_cap j s <? 15.0)%float = true /\
  estimate_impact_from_name j s = round1 (base_impact_before_cap j s) /\
  (estimate_impact_from_name j s <=? 2.4)%float = true.
Proof.
  unfold estimate_impact_from_name.
  destruct (base_impact_before_cap_cases j s) as [H|[H|[H|[H|[H|[H|[H|[H|[]]]]]]]]];
    rewrite <- H; vm_compute; repeat split.
Qed.

(** ** Further properties of the resolver *)

(** The default only matters for the empty name: the heuristic is always
    positive, so its [else] branch is never taken. *)
Lemma default_irrelevant sp j d1 d2 :
  j <> "" -> get_impact_factor sp j d1 = get_impact_factor sp j d2.
Proof.
  intros Hne. destruct j as [|c r]; [congruence|].
  unfold get_impact_factor. cbv beta iota zeta.
  destruct (high_impact_step _ _); [reflexivity|].
  destruct (dict_get _ _); [reflexivity|].
  destruct (case_insensitive_step _ _); [reflexivity|].
  destruct (fuzzy_step_ok (specialty_dict sp) (py_lower (py_strip (String c r))))
    as [[v|] ->]; cbv beta iota delta [bind ret]; [reflexivity|].
  destruct (pattern_step _ _); [reflexivity|].
  destruct (estimate_cases (py_lower (py_strip (String c r))) (py_lower sp))
    as [H|[H|[H|[H|[H|[H|[H|[H|[]]]]]]]]]; rewrite <- H; vm_compute; reflexivity.
Qed.

Lemma nodupb_spec x l : nodupb (x :: l) = true -> ~ In x l.
Proof.
  simpl. intros H Hin. apply andb_true_iff in H as [H _].
  apply negb_true_iff in H.
  assert (existsb (String.eqb x) l = true)
    by (apply existsb_exists; exists x; split; [exact Hin|apply String.eqb_refl]).
  congruence.
Qed.

(** With keys distinct up to case, an exact hit is also the
    case-insensitive hit. *)
Lemma exact_is_case_insensitive d c v :
  nodupb (map (fun kv => py_lower (fst kv)) d) = true ->
  dict_get c d = Some v -> case_insensitive_step d (py_lower c) = Some v.
Proof.
  induction d as [|[k v'] d IH]; simpl; [discriminate|].
  intros Hnd. destruct (String.eqb_spec c k) as [->|Hck].
  - intros [= ->]. rewrite String.eqb_refl. reflexivity.
  - intros Hget. destruct (String.eqb_spec (py_lower k) (py_lower c)) as [E|_].
    + exfalso. apply (nodupb_spec (py_lower k) (map (fun kv => py_lower (fst kv)) d) Hnd).
      rewrite E. destruct (dict_get_in _ _ _ Hget) as [Hin _].
      replace (map (fun kv => py_lower (fst kv)) d) with (map py_lower (map fst d))
        by apply map_map.
      apply in_map, Hin.
    + apply IH; [|exact Hget]. simpl in Hnd. apply andb_true_iff in Hnd. tauto.
Qed.

Lemma specialty_dict_lower_unique sp :
  nodupb (map (fun kv => py_lower (fst kv)) (specialty_dict sp)) = true.
Proof.
  destruct (specialty_dict_cases sp) as [->|[<-|[<-|[<-|[]]]]];
    vm_compute; reflexivity.
Qed.

(** The result depends on the journal name only through its stripped,
    lower-cased form (for non-empty names). *)
Lemma resolution_depends_on_lower sp j j' d :
  j <> "" -> j' <> "" ->
  py_lower (py_strip j) = py_lower (py_strip j') ->
  get_impact_factor sp j d = get_impact_factor sp j' d.
Proof.
  intros Hj Hj' Hl.
  destruct j as [|c r]; [congruence|]. destruct j' as [|c' r']; [congruence|].
  unfold get_impact_factor. cbv beta iota zeta. rewrite Hl.
  set (l := py_lower (py_strip (String c' r'))) in *.
  destruct (high_impact_step _ l); [reflexivity|].
  pose proof (specialty_dict_lower_unique sp) as U.
  destruct (dict_get (py_strip (String c r)) (specialty_dict sp)) as [v|] eqn:E1;
  destruct (dict_get (py_strip (String c' r')) (specialty_dict sp)) as [v'|] eqn:E2.
  - apply (exact_is_case_insensitive _ _ _ U) in E1.
    apply (exact_is_case_insensitive _ _ _ U) in E2. rewrite Hl in E1.
    fold l in E1, E2. congruence.
  - apply (exact_is_case_insensitive _ _ _ U) in E1. rewrite Hl in E1.
    fold l in E1. rewrite E1. reflexivity.
  - apply (exact_is_case_insensitive _ _ _ U) in E2. fold l in E2.
    rewrite E2. reflexivity.
  - reflexivity.
Qed.

Lemma string_app_nil s : (s ++ "")%string = s.
Proof. induction s as [|c s IH]; simpl; [reflexivity|rewrite IH; reflexivity]. Qed.

Lemma lstrip_space_prefix w s : all_space w = true -> lstrip (w ++ s) = lstrip s.
Proof.
  induction w as [|c w IH]; simpl; [reflexivity|].
  intros H. apply andb_true_iff in H as [Hc Hw]. rewrite Hc. exact (IH Hw).
Qed.

Lemma rstrip_space w : all_space w = true -> rstrip w = "".
Proof.
  induction w as [|c w IH]; simpl; [reflexivity|].
  intros H. apply andb_true_iff in H as [Hc Hw]. rewrite (IH Hw), Hc. reflexivity.
Qed.

Lemma rstrip_space_suffix s w : all_space w = true -> rstrip (s ++ w) = rstrip s.
Proof.
  intros Hw. induction s as [|c r IH]; simpl; [exact (rstrip_space w Hw)|].
  rewrite IH. reflexivity.
Qed.

Lemma strip_space_suffix s w : all_space w = true -> py_strip (s ++ w) = py_strip s.
Proof.
  intros Hw. unfold py_strip. induction s as [|c r IH]; simpl.
  - replace (lstrip w) with (lstrip (w ++ "")) by (f_equal; apply string_app_nil).
    rewrite (lstrip_space_prefix w "" Hw). reflexivity.
  - destruct (py_isspace c); [exact IH|].
    exact (rstrip_space_suffix (String c r) w Hw).
Qed.

Lemma strip_space_padding w1 s w2 :
  all_space w1 = true -> all_space w2 = true ->
  py_strip (w1 ++ s ++ w2) = py_strip s.
Proof.
  intros H1 H2. unfold py_strip at 1. rewrite (lstrip_space_prefix w1 _ H1).
  fold (py_strip (s ++ w2)). exact (strip_space_suffix s w2 H2).
Qed.

(** X1: the default is returned for the empty name only: for any other
    name the result does not depend on it. *)
Theorem default_only_for_empty_name sp j d1 d2 (Hne : j <> "") :
  get_impact_factor sp j d1 = get_impact_factor sp j d2.
Proof. exact (default_irrelevant sp j d1 d2 Hne). Qed.

Lemma default_only_for_empty_name_witness :
  get_impact_factor "Allergy" "Unknown Gazette" 7.0%float =
  get_impact_factor "Allergy" "Unknown Gazette" 3.0%float.
Proof. apply default_only_for_empty_name. discriminate. Defined.

(** X2: two non-empty journal names with the same stripped, lower-cased
    form resolve to the same value under every specialty: the exact,
    case-sensitive lookup never yields anything the case-insensitive one
    would not, since no table has two keys equal up to case. *)
Theorem journal_name_case_insensitive sp j j' d
  (Hj : j <> "") (Hj' : j' <> "")
  (Hl : py_lower (py_strip j) = py_lower (py_strip j')) :
  get_impact_factor sp j d = get_impact_factor sp j' d.
Proof. exact (resolution_depends_on_lower sp j j' d Hj Hj' Hl). Qed.

Lemma journal_name_case_insensitive_witness :
  get_impact_factor "Ophthalmology" "JAMA Ophthalmology" 1.0%float =
  get_impact_factor "Ophthalmology" " jama OPHTHALMOLOGY " 1.0%float.
Proof.
  apply journal_name_case_insensitive; [discriminate|discriminate|].
  vm_compute. reflexivity.
Defined.

(** X3: surrounding whitespace is ignored: a non-empty name padded with
    whitespace on either side resolves as the name itself. *)
Theorem whitespace_padding_ignored sp w1 j w2 d
  (H1 : all_space w1 = true) (H2 : all_space w2 = true) (Hj : j <> "") :
  get_impact_factor sp (w1 ++ j ++ w2) d = get_impact_factor sp j d.
Proof.
  apply resolution_depends_on_lower; [|exact Hj|].
  - destruct w1; [destruct j; [congruence|discriminate]|discriminate].
  - rewrite (strip_space_padding w1 j w2 H1 H2). reflexivity.
Qed.

Lemma whitespace_padding_ignored_witness :
  get_impact_factor "Dermatology" ("  " ++ "Burns" ++ newline) 1.0%float =
  get_impact_factor "Dermatology" "Burns" 1.0%float.
Proof.
  apply whitespace_padding_ignored; [reflexivity|reflexivity|discriminate].
Defined.

(** *** String facts *)

Lemma string_app_assoc a b c : ((a ++ b) ++ c)%string = (a ++ b ++ c)%string.
Proof. induction a as [|x a IH]; simpl; [reflexivity|rewrite IH; reflexivity]. Qed.

Lemma string_length_app a b :
  String.length (a ++ b) = String.length a + String.length b.
Proof. induction a as [|x a IH]; simpl; [reflexivity|rewrite IH; reflexivity]. Qed.

Lemma prefixb_app p c : prefixb p (p ++ c) = true.
Proof.
  induction p as [|x p IH]; simpl; [reflexivity|].
  rewrite Ascii.eqb_refl. exact IH.
Qed.

Lemma prefixb_inv p s : prefixb p s = true -> exists c, s = (p ++ c)%string.
Proof.
  revert s. induction p as [|x p IH]; intros s; simpl; [eauto|].
  destruct s as [|y s]; [discriminate|].
  intros H. apply andb_true_iff in H as [Hx Hp].
  apply Ascii.eqb_eq in Hx. subst y. destruct (IH s Hp) as [c ->]. eauto.
Qed.

Lemma prefixb_length p s : prefixb p s = true -> String.length p <= String.length s.
Proof.
  intros H. destruct (prefixb_inv p s H) as [c ->].
  rewrite string_length_app. lia.
Qed.

Lemma py_in_inv q s :
  py_in q s = true -> exists a b, s = (a ++ q ++ b)%string.
Proof.
  induction s as [|x s IH]; simpl; intros H.
  - destruct (prefixb_inv q "" ltac:(destruct q; [reflexivity|discriminate])) as [c E].
    exists "", c. exact E.
  - apply orb_true_iff in H as [H|H].
    + destruct (prefixb_inv q _ H) as [c E]. exists "", c. exact E.
    + destruct (IH H) as (a & b & ->). exists (String x a), b. reflexivity.
Qed.

Lemma py_in_app q a b : py_in q (a ++ q ++ b) = true.
Proof.
  induction a as [|x a IH]; simpl.
  - destruct (q ++ b)%string eqn:E; simpl;
      rewrite <- E, prefixb_app; reflexivity.
  - rewrite IH, orb_true_r. reflexivity.
Qed.

(** A substring of a prefix of [s] is a substring of [s]. *)
Lemma py_in_prefix q p s :
  py_in q p = true -> prefixb p s = true -> py_in q s = true.
Proof.
  intros Hq Hp. destruct (py_in_inv q p Hq) as (a & b & ->).
  destruct (prefixb_inv _ s Hp) as [c ->].
  rewrite !string_app_assoc. apply py_in_app.
Qed.

Lemma py_in_refl s : py_in s s = true.
Proof.
  pose proof (py_in_app s "" "") as H. simpl in H.
  rewrite string_app_nil in H. exact H.
Qed.

Lemma drop_app a t : drop (String.length a) (a ++ t) = t.
Proof. induction a as [|x a IH]; simpl; [destruct t; reflexivity|exact IH]. Qed.

Lemma take_app q b : take (String.length q) (q ++ b) = q.
Proof. induction q as [|x q IH]; simpl; [reflexivity|rewrite IH; reflexivity]. Qed.

(** *** High-impact step *)

Lemma high_impact_step_app pre k v post l :
  py_in (py_lower k) l = true ->
  (forall k' v', In (k', v') pre -> py_in (py_lower k') l = false) ->
  high_impact_step (pre ++ (k, v) :: post) l = Some v.
Proof.
  intros Hk Hpre. induction pre as [|[k' v'] pre IH]; simpl.
  - rewrite Hk, orb_true_r. reflexivity.
  - assert (Hk' : py_in (py_lower k') l = false) by (apply (Hpre k' v'); left; reflexivity).
    rewrite Hk'. destruct (String.eqb_spec (py_lower k') l) as [E|_].
    + rewrite E, py_in_refl in Hk'. discriminate.
    + apply IH. intros k'' v'' Hin. apply (Hpre k'' v''). right. exact Hin.
Qed.

Lemma high_impact_step_hit hi k v l :
  In (k, v) hi -> py_in (py_lower k) l = true ->
  exists v', In v' (map snd hi) /\ high_impact_step hi l = Some v'.
Proof.
  induction hi as [|[k' v'] hi IH]; simpl; [tauto|].
  intros Hin Hk. destruct (_ || _) eqn:E; [eauto|].
  destruct Hin as [Eq|Hin].
  - apply orb_false_iff in E as [_ E].
    pose proof (f_equal fst Eq) as Ek. simpl in Ek. subst k'. congruence.
  - destruct (IH Hin Hk) as (v0 & Hv0 & ->). eauto.
Qed.

Lemma high_impact_keys_nonempty k v :
  In (k, v) HIGH_IMPACT_JOURNALS -> py_lower k <> "".
Proof.
  intros Hin E. apply py_lower_empty in E. subst k.
  apply (in_map fst) in Hin. simpl in Hin. intuition discriminate.
Qed.

(** X4: the high-impact entries act by substring: the first entry (in
    dict order) whose lower-cased name occurs in the lower-cased stripped
    journal name gives the result, whatever the specialty and default. *)
Theorem first_override_substring_wins sp j d pre k v post
  (Hhi : HIGH_IMPACT_JOURNALS = (pre ++ (k, v) :: post)%list)
  (Hk : py_in (py_lower k) (py_lower (py_strip j)) = true)
  (Hpre : forall k' v', In (k', v') pre ->
            py_in (py_lower k') (py_lower (py_strip j)) = false) :
  get_impact_factor sp j d = ret v.
Proof.
  destruct j as [|c r].
  - exfalso. change (py_lower (py_strip "")) with "" in Hk.
    rewrite py_in_empty in Hk. apply String.eqb_eq in Hk.
    apply (high_impact_keys_nonempty k v); [|exact Hk].
    rewrite Hhi. apply in_or_app. right. left. reflexivity.
  - unfold get_impact_factor. cbv beta iota zeta.
    rewrite Hhi, (high_impact_step_app pre k v post _ Hk Hpre). reflexivity.
Qed.

Lemma first_override_substring_wins_witness :
  get_impact_factor "Ophthalmology" "Journal of Neuroscience" 1.0%float = ret 47.7%float.
Proof.
  apply (first_override_substring_wins "Ophthalmology" "Journal of Neuroscience"
           1.0%float [] "Science" 47.7%float (tl HIGH_IMPACT_JOURNALS));
    [reflexivity | vm_compute; reflexivity | intros k' v' []].
Defined.

(** *** Generic patterns shadowed by the high-impact entries *)

Lemma rx_search_lit p s : rx_search (RLit p) s = true -> prefixb p s = true.
Proof.
  unfold rx_search. simpl. destruct (prefixb p s); [reflexivity|discriminate].
Qed.

Lemma rx_search_seq_lit p x s : rx_search (RSeq (RLit p) x) s = true -> prefixb p s = true.
Proof.
  unfold rx_search. simpl. destruct (prefixb p s); [reflexivity|discriminate].
Qed.

Lemma rx_search_alt a b s :
  rx_search (RAlt a b) s = rx_search a s || rx_search b s.
Proof. unfold rx_search. simpl. apply existsb_app. Qed.

Lemma override_hit_gives sp j d k v :
  In (k, v) HIGH_IMPACT_JOURNALS ->
  py_in (py_lower k) (py_lower (py_strip j)) = true ->
  exists v', In v' (map snd HIGH_IMPACT_JOURNALS) /\ get_impact_factor sp j d = ret v'.
Proof.
  intros Hin Hk.
  destruct (high_impact_step_hit _ _ _ _ Hin Hk) as (v' & Hv' & Hs).
  exists v'. split; [exact Hv'|].
  destruct j as [|c r].
  - exfalso. change (py_lower (py_strip "")) with "" in Hk.
    rewrite py_in_empty in Hk. apply String.eqb_eq in Hk.
    exact (high_impact_keys_nonempty k v Hin Hk).
  - unfold get_impact_factor. cbv beta iota zeta. rewrite Hs. reflexivity.
Qed.

(** X5: the generic patterns for the Lancet, Nature Medicine, Nature
    Reviews and Cell journals (entries 1, 3, 5 and 7, from 0) are never
    used: any name they match contains "lancet", "nature" or "cell" and
    resolves to a high-impact value before the patterns are tried. *)
Theorem shadowed_generic_patterns sp j d i r f
  (Hi : In i [1; 3; 5; 7])
  (Hnth : nth_error GENERIC_PATTERNS i = Some (r, f))
  (Hm : rx_search r (py_lower (py_strip j)) = true) :
  exists v, In v (map snd HIGH_IMPACT_JOURNALS) /\ get_impact_factor sp j d = ret v.
Proof.
  set (l := py_lower (py_strip j)) in *.
  apply (f_equal (option_map fst)) in Hnth.
  destruct Hi as [<-|[<-|[<-|[<-|[]]]]]; simpl in Hnth; injection Hnth as <-;
    unfold lits, word_after in Hm.
  - apply (override_hit_gives sp j d "Lancet" 79.3%float); [simpl; tauto|].
    rewrite rx_search_alt in Hm. apply orb_true_iff in Hm as [Hm|Hm];
      apply rx_search_lit in Hm; refine (py_in_prefix _ _ _ _ Hm); reflexivity.
  - apply (override_hit_gives sp j d "Nature" 49.9%float); [simpl; tauto|].
    apply rx_search_lit in Hm. refine (py_in_prefix _ _ _ _ Hm); reflexivity.
  - apply (override_hit_gives sp j d "Nature" 49.9%float); [simpl; tauto|].
    apply rx_search_seq_lit in Hm. refine (py_in_prefix _ _ _ _ Hm); reflexivity.
  - apply (override_hit_gives sp j d "Cell" 38.6%float); [simpl; tauto|].
    apply rx_search_seq_lit in Hm. refine (py_in_prefix _ _ _ _ Hm); reflexivity.
Qed.

Lemma shadowed_generic_patterns_witness :
  exists v, In v (map snd HIGH_IMPACT_JOURNALS) /\
    get_impact_factor "Dermatology" "Nature Reviews Dermatology" 1.0%float = ret v.
Proof.
  apply (shadowed_generic_patterns "Dermatology" "Nature Reviews Dermatology" 1.0%float 5
           (word_after "nature reviews ") 30.0%float);
    [simpl; tauto | reflexivity | vm_compute; reflexivity].
Defined.

(** *** Range of the result *)

Lemma static_values_in_range :
  forallb (fun x => (0.5 <=? x) && (x <=? 91.2 * 1.2))%float
    (map snd HIGH_IMPACT_JOURNALS ++ map snd allergy_table ++
     map snd ophthalmology_table ++ map snd dermatology_table ++
     map snd GENERIC_PATTERNS ++ map (fun f => f * 1.2)%float (map snd GENERIC_PATTERNS) ++
     [1.0; 1.2; 1.3; 1.6; 1.5; 1.8; 2.0; 2.3]%float)%list = true.
Proof. vm_compute. reflexivity. Qed.

(** X6: for a non-empty journal name the result lies between 0.5 (the
    smallest table value) and 91.2 * 1.2 (the largest pattern factor with
    the specialty bonus), whatever the default. *)
Theorem nonempty_name_result_range sp j d (Hne : j <> "") :
  exists r, get_impact_factor sp j d = ret r /\
    (0.5 <=? r)%float = true /\ (r <=? 91.2 * 1.2)%float = true.
Proof.
  rewrite (default_irrelevant sp j d 1.0%float Hne).
  destruct (get_impact_factor_cases sp j 1.0%float) as (r & Hr & Hc).
  exists r. split; [exact Hr|].
  pose proof static_values_in_range as P. rewrite forallb_forall in P.
  cut ((0.5 <=? r)%float && (r <=? 91.2 * 1.2)%float = true);
    [rewrite andb_true_iff; tauto|].
  destruct Hc as [->|[H|[H|[H|[(f & Hf & ->)|H]]]]].
  - vm_compute. reflexivity.
  - apply P. rewrite !in_app_iff. tauto.
  - destruct (specialty_dict_cases sp) as [E|E]; [rewrite E in H; destruct H|].
    destruct E as [E|[E|[E|[]]]]; simpl in E; rewrite <- E in H;
      apply P; rewrite !in_app_iff; tauto.
  - apply P. rewrite !in_app_iff. tauto.
  - apply P. rewrite !in_app_iff. do 5 right. left.
    apply (in_map (fun f => f * 1.2)%float). exact Hf.
  - apply P. rewrite !in_app_iff. tauto.
Qed.

Lemma nonempty_name_result_range_witness :
  exists r, get_impact_factor "Allergy" "Revue Francaise d'Allergologie" 9.0%float = ret r /\
    (0.5 <=? r)%float = true /\ (r <=? 91.2 * 1.2)%float = true.
Proof. apply nonempty_name_result_range. discriminate. Defined.

(** *** How rarely the partial match fires *)

(** Non-overlapping occurrences of [sub] fit in [s] after the skip. *)
Lemma count_from_bound sub k s :
  String.length sub * count_from sub k s <= String.length s - k.
Proof.
  revert k. induction s as [|c r IH]; intros k; simpl; [lia|].
  destruct k as [|k].
  - destruct (prefixb sub (String c r)) eqn:Hp.
    + pose proof (prefixb_length _ _ Hp) as Hl. simpl in Hl.
      specialize (IH (String.length sub - 1)). lia.
    + specialize (IH 0). lia.
  - specialize (IH k). lia.
Qed.

Lemma py_count_bound s sub :
  sub <> "" -> String.length sub * py_count s sub <= String.length s.
Proof.
  intros Hne. unfold py_count. destruct sub as [|x sub]; [congruence|].
  pose proof (count_from_bound (String x sub) 0 s). lia.
Qed.

Lemma count_from_pos sub k s : 0 < count_from sub k s -> py_in sub s = true.
Proof.
  revert k. induction s as [|c r IH]; intros k; simpl; [lia|].
  intros H. destruct k as [|k].
  - destruct (prefixb sub (String c r)) eqn:Hp; [reflexivity|].
    rewrite (IH 0 H), orb_true_r. reflexivity.
  - rewrite (IH k H), orb_true_r. reflexivity.
Qed.

(** An occurrence of [q] in [s] is a slice of [s]. *)
Lemma py_in_slice q s :
  q <> "" -> py_in q s = true ->
  exists i, i < String.length s /\ q = take (String.length q) (drop i s).
Proof.
  intros Hne H. destruct (py_in_inv q s H) as (a & b & ->).
  exists (String.length a). split.
  - rewrite !string_length_app. destruct q; [congruence|]. simpl. lia.
  - rewrite drop_app, take_app. reflexivity.
Qed.

(** No table key contains five non-overlapping copies of a string of six
    or more characters. *)
Lemma table_keys_no_fivefold_repeat :
  forallb (fun tbl => forallb (fun kv =>
      let lk := py_lower (fst kv) in
      forallb (fun i => forallb (fun n =>
          let t := take n (drop i lk) in
          implb ((5 * n <=? String.length lk) && (String.length t =? n))
                (py_count lk t <? 5))
        (seq 6 (String.length lk))) (seq 0 (String.length lk))) tbl)
    (map snd JOURNAL_IMPACT_FACTORS) = true.
Proof. vm_compute. reflexivity. Qed.

Lemma fuzzy_accept_spec l k :
  fuzzy_accept l k = ret true ->
  6 <= String.length l /\ 6 <= String.length k /\
  5 <= Nat.max (py_count l k) (py_count k l).
Proof.
  intros H. pose proof (fuzzy_accept_count l k H) as Hc.
  unfold fuzzy_accept in H.
  destruct (_ || _); [|discriminate].
  destruct (5 <? _) eqn:H5; [|discriminate].
  apply Nat.ltb_lt in H5. lia.
Qed.

Lemma fuzzy_step_accepted d l v :
  fuzzy_step d l = ret (Some v) ->
  exists key, In (key, v) d /\ fuzzy_accept l (py_lower key) = ret true.
Proof.
  induction d as [|[k v'] d IH]; simpl; [discriminate|].
  destruct (fuzzy_accept_ok l (py_lower k)) as [b Hb]. rewrite Hb. simpl.
  destruct b.
  - intros [= ->]. eauto.
  - intros H. destruct (IH H) as (key & Hin & Hk). eauto.
Qed.

(** X7: the partial match of a specialty table only fires on names of at
    least 30 characters: the name must contain five copies of a key of
    six or more characters, since no key of the tables contains five
    copies of such a name. *)
Theorem fuzzy_match_needs_long_name sp l v
  (Hfz : fuzzy_step (specialty_dict sp) l = ret (Some v)) :
  30 <= String.length l.
Proof.
  destruct (fuzzy_step_accepted _ _ _ Hfz) as (key & Hin & Hacc).
  destruct (fuzzy_accept_spec _ _ Hacc) as (Hl & Hk & Hc).
  set (lk := py_lower key) in *.
  assert (Hlne : l <> "") by (intros ->; simpl in Hl; lia).
  assert (Hkne : lk <> "") by (intros E; rewrite E in Hk; simpl in Hk; lia).
  destruct (Nat.le_ge_cases (py_count l lk) (py_count lk l)) as [Hle|Hge].
  - exfalso. rewrite Nat.max_r in Hc by exact Hle.
    pose proof (py_count_bound lk l Hlne) as Hb.
    assert (Hin' : py_in l lk = true).
    { unfold py_count in Hc. destruct l as [|x l']; [congruence|].
      apply (count_from_pos _ 0). lia. }
    assert (H5 : String.length l * 5 <= String.length l * py_count lk l)
      by (apply Nat.mul_le_mono_l; exact Hc).
    destruct (py_in_slice l lk Hlne Hin') as (i & Hi & Hsl).
    destruct (specialty_dict_cases sp) as [E|E]; [rewrite E in Hin; destruct Hin|].
    pose proof table_keys_no_fivefold_repeat as P.
    rewrite forallb_forall in P. specialize (P _ E).
    rewrite forallb_forall in P. specialize (P _ Hin). simpl in P. fold lk in P.
    rewrite forallb_forall in P. specialize (P i (proj2 (in_seq (String.length lk) 0 i) ltac:(lia))).
    rewrite forallb_forall in P.
    specialize (P (String.length l)
                  (proj2 (in_seq (String.length lk) 6 (String.length l)) ltac:(lia))).
    rewrite <- Hsl in P.
    assert (Hle5 : (5 * String.length l <=? String.length lk) = true)
      by (apply Nat.leb_le; lia).
    simpl in Hle5. rewrite ?Nat.eqb_refl, Hle5 in P. simpl in P. apply Nat.ltb_lt in P. lia.
  - rewrite Nat.max_l in Hc by exact Hge.
    pose proof (py_count_bound l lk Hkne). nia.
Qed.

Lemma fuzzy_match_needs_long_name_witness :
  30 <= String.length "corneacorneacorneacorneacornea".
Proof.
  apply (fuzzy_match_needs_long_name "Ophthalmology" _ 2.6%float).
  vm_compute. reflexivity.
Defined.

(** *** [get_all_specialties] *)

(** X8: every specialty that has a hard-coded table is listed by
    [get_all_specialties], and the list has no duplicates. *)
Theorem all_specialties_cover_tables :
  (forall sp, specialty_dict sp <> [] -> In sp get_all_specialties) /\
  nodupb get_all_specialties = true /\ increasingb get_all_specialties = true.
Proof.
  split; [|split; vm_compute; reflexivity].
  intros sp Hne. unfold specialty_dict in Hne.
  destruct (dict_get sp JOURNAL_IMPACT_FACTORS) as [d|] eqn:E; [|congruence].
  apply dict_get_in in E as [Hin _].
  assert (P : forallb (fun s => existsb (String.eqb s) get_all_specialties)
                (map fst JOURNAL_IMPACT_FACTORS) = true) by (vm_compute; reflexivity).
  rewrite forallb_forall in P. specialize (P _ Hin).
  apply existsb_exists in P as (x & Hx & Eq). apply String.eqb_eq in Eq. subst x.
  exact Hx.
Qed.

Lemma all_specialties_cover_tables_witness : In "Dermatology" get_all_specialties.
Proof.
  apply (proj1 all_specialties_cover_tables). vm_compute. discriminate.
Defined.

(** X9: the table lookup is case-sensitive in the specialty: for every
    specialty with a table, its lower-cased spelling selects no table, so
    names resolve as for an unknown specialty. *)
Theorem specialty_lookup_case_sensitive sp
  (Htbl : specialty_dict sp <> []) :
  specialty_dict (py_lower sp) = [].
Proof.
  unfold specialty_dict in *.
  destruct (dict_get sp JOURNAL_IMPACT_FACTORS) as [d|] eqn:E; [|congruence].
  apply dict_get_in in E as [Hin _]. simpl in Hin.
  destruct Hin as [<-|[<-|[<-|[]]]]; vm_compute; reflexivity.
Qed.

Lemma specialty_lookup_case_sensitive_witness :
  specialty_dict "ophthalmology" = [] /\
  get_impact_factor "ophthalmology" "Cornea" 1.0%float = ret 1.0%float.
Proof.
  split.
  - apply (specialty_lookup_case_sensitive "Ophthalmology"). vm_compute. discriminate.
  - vm_compute. reflexivity.
Defined.
